(** * umath: elementary functions lifted to Monte Carlo uncertain quantities

    A shallow embedding of [umath.py].  Every function of the module has
    the same shape: test whether the argument is an instance of
    [UncertainFunction]; if it is, apply the numpy primitive to its sample
    array and build a new [UncertainFunction] whose first constructor
    argument is [np.mean] of the new samples; otherwise hand the argument
    to the numpy primitive as it is.

    Python objects live in a heap so that object identity, allocation and
    the absence of writes can be stated.  Scalars are IEEE 754 binary64
    numbers, Rocq's primitive floats, the numbers numpy's [float64]
    arrays hold. *)

From Stdlib Require Import List Bool Arith ZArith Lia Floats Uint63.
Import ListNotations.

Set Implicit Arguments.

(** ** Data *)

(** A one-dimensional [float64] array, by value. *)
Definition ndarray : Type := list float.

(** Modelled from the spec: the class [UncertainFunction] is imported from
    the package [mcerp] and is not part of this module.  The specification
    gives it a nominal value and a sample array, and a constructor taking
    the two in that order.  [umath.py] reads the sample array as
    [x._mcpts] (in [abs], [acos] and [hypot]) and as [x.mcpts] (everywhere
    else); both spellings are taken to read the one sample array. *)
Record UncertainFunction : Type := mkUncertainFunction {
  nominal_value : float;
  _mcpts : ndarray
}.

Definition mcpts (u : UncertainFunction) : ndarray := _mcpts u.

(** An object that offers the same two pieces of data, a nominal value
    and a sample array, and nothing else, without being an instance of
    [UncertainFunction]. *)
Record Duck : Type := mkDuck {
  duck_nominal_value : float;
  duck_samples : ndarray
}.

Inductive object : Type :=
| Instance (u : UncertainFunction)
| Foreign (d : Duck).

Definition loc : Type := nat.

(** The heap: the object at address [l] is the [l]-th element; allocation
    appends. *)
Definition heap : Type := list object.

(** What a caller can pass: a Python or numpy scalar, a plain array, or a
    reference to an object. *)
Inductive value : Type :=
| Scalar (x : float)
| Array (a : ndarray)
| Ref (l : loc).

Inductive exn : Type :=
| TypeError        (* numpy: ufunc not supported for the input types *)
| ValueError       (* numpy: operands could not be broadcast together *)
| AttributeError
| NotUpcast.       (* mcerp: value cannot be converted *)

(** ** Computations: heap passing with exceptions *)

Inductive outcome (A : Type) : Type :=
| Return (a : A)
| Raise (e : exn).

Arguments Raise {A} e.

Definition M (A : Type) : Type := heap -> outcome A * heap.

Definition ret {A} (a : A) : M A := fun h => (Return a, h).

Definition raise {A} (e : exn) : M A := fun h => (Raise e, h).

Definition bind {A B} (c : M A) (k : A -> M B) : M B :=
  fun h =>
    match c h with
    | (Return a, h') => k a h'
    | (Raise e, h') => (Raise e, h')
    end.

Definition lift {A} (o : outcome A) : M A := fun h => (o, h).

Declare Scope py_scope.
Delimit Scope py_scope with py.
Notation "x <- c ;; k" := (bind c (fun x => k))
  (at level 100, c at next level, right associativity) : py_scope.
Open Scope py_scope.

(** [isinstance(x, UncertainFunction)]: a test on the class of the object
    [x] refers to. *)
Definition isinstance (x : value) : M bool :=
  fun h =>
    (Return match x with
            | Ref l => match nth_error h l with
                       | Some (Instance _) => true
                       | _ => false
                       end
            | _ => false
            end, h).

(** Attribute access [x._mcpts] or [x.mcpts] on an instance. *)
Definition getattr (attr : UncertainFunction -> ndarray) (x : value) : M ndarray :=
  fun h =>
    match x with
    | Ref l => match nth_error h l with
               | Some (Instance u) => (Return (attr u), h)
               | _ => (Raise AttributeError, h)
               end
    | _ => (Raise AttributeError, h)
    end.

(** The constructor call [UncertainFunction(mean, mcpts)]: a new object at
    the next free address. *)
Definition new_UncertainFunction (mean : float) (samples : ndarray) : M value :=
  fun h => (Return (Ref (length h)),
            h ++ [Instance (mkUncertainFunction mean samples)]).

(** ** numpy *)

Module np.

(** The ufuncs [umath.py] calls whose [float64] loops Rocq's primitive
    floats do not provide; [abs], [fabs] and [sqrt] are primitive
    operations and [hypot] has two arguments. *)
Inductive ufunc : Type :=
| arccos | arccosh | arcsin | arcsinh | arctan | arctanh
| ceil | cos | cosh | degrees | exp | expm1 | floor
| log | log10 | log1p | radians | sin | sinh | tan | tanh | trunc.

(** The number of elements as a [float64]. *)
Definition count (n : nat) : float := of_uint63 (Uint63.of_Z (Z.of_nat n)).

(** [np.mean] of a one-dimensional [float64] array: the sum of the
    elements divided by their number; [nan] for the empty array.  The
    elements are added in order starting from zero, as numpy does for
    fewer than eight of them (longer arrays are added in blocks, and
    versions of numpy differ on the sign of a sum of negative zeros);
    nothing below depends on the order except the evaluated examples,
    which have at most three positive elements. *)
Definition mean (a : ndarray) : float :=
  (fold_left PrimFloat.add a 0 / count (length a))%float.

(** A one-argument ufunc on an array: element by element, never raising
    (a domain error is a [nan] or an infinity in the result). *)
Definition loop1 (k : float -> float) (a : ndarray) : ndarray := map k a.

(** A one-argument ufunc on an arbitrary argument.  An object reference
    becomes an object array, for which the object would need a method of
    the ufunc's name; neither class of the model has one. *)
Definition ufunc1 (k : float -> float) (x : value) : M value :=
  match x with
  | Scalar s => ret (Scalar (k s))
  | Array a => ret (Array (loop1 k a))
  | Ref _ => raise TypeError
  end.

Fixpoint zip_with (k : float -> float -> float) (a b : ndarray) : ndarray :=
  match a, b with
  | x :: a', y :: b' => k x y :: zip_with k a' b'
  | _, _ => []
  end.

(** A two-argument ufunc on two one-dimensional arrays, with numpy's
    broadcasting: equal lengths pair up index by index, an array of
    length one is stretched to the other's length, anything else is
    refused. *)
Definition loop2 (k : float -> float -> float) (a b : ndarray) : outcome ndarray :=
  if length a =? length b then Return (zip_with k a b)
  else match a, b with
       | [x], _ => Return (map (k x) b)
       | _, [y] => Return (map (fun x => k x y) a)
       | _, _ => Raise ValueError
       end.

(** A two-argument ufunc on arbitrary arguments; it has no loop for
    objects. *)
Definition ufunc2 (k : float -> float -> float) (x y : value) : M value :=
  match x, y with
  | Scalar s, Scalar t => ret (Scalar (k s t))
  | Scalar s, Array b => ret (Array (map (k s) b))
  | Array a, Scalar t => ret (Array (map (fun x => k x t) a))
  | Array a, Array b => a' <- lift (loop2 k a b) ;; ret (Array a')
  | _, _ => raise TypeError
  end.

End np.

(** ** mcerp *)

(** Modelled from the spec: [to_uncertain_func] is imported from the
    package [mcerp] and is not part of this module.  The specification's
    coercion returns an uncertain quantity unchanged and lifts a plain
    scalar to a new one whose samples all equal the scalar; whatever is
    neither is reported as an error.  [umath.py] calls it with the value
    alone, so the length of the constant array is the collaborator's own
    sample count [npts]. *)
Definition to_uncertain_func (npts : nat) (x : value) : M value :=
  b <- isinstance x ;;
  if b then ret x
  else match x with
       | Scalar c => new_UncertainFunction c (repeat c npts)
       | _ => raise NotUpcast
       end.

(** ** The module *)

Module umath.

Section Functions.

(** The scalar [float64] kernels of the numpy ufuncs that are not
    primitive float operations, the kernel of [np.hypot], and the sample
    count of [mcerp]. *)
Variable kernel : np.ufunc -> float -> float.
Variable kernel_hypot : float -> float -> float.
Variable npts : nat.

Definition abs (x : value) : M value :=
  b <- isinstance x ;;
  if b then
    a <- getattr _mcpts x ;;
    let mcpts := np.loop1 PrimFloat.abs a in
    new_UncertainFunction (np.mean mcpts) mcpts
  else np.ufunc1 PrimFloat.abs x.

Definition acos (x : value) : M value :=
  b <- isinstance x ;;
  if b then
    a <- getattr _mcpts x ;;
    let mcpts := np.loop1 (kernel np.arccos) a in
    new_UncertainFunction (np.mean mcpts) mcpts
  else np.ufunc1 (kernel np.arccos) x.

Definition acosh (x : value) : M value :=
  b <- isinstance x ;;
  if b then
    a <- getattr mcpts x ;;
    let mcpts := np.loop1 (kernel np.arccosh) a in
    new_UncertainFunction (np.mean mcpts) mcpts
  else np.ufunc1 (kernel np.arccosh) x.

Definition asin (x : value) : M value :=
  b <- isinstance x ;;
  if b then
    a <- getattr mcpts x ;;
    let mcpts := np.loop1 (kernel np.arcsin) a in
    new_UncertainFunction (np.mean mcpts) mcpts
  else np.ufunc1 (kernel np.arcsin) x.

Definition asinh (x : value) : M value :=
  b <- isinstance x ;;
  if b then
    a <- getattr mcpts x ;;
    let mcpts := np.loop1 (kernel np.arcsinh) a in
    new_UncertainFunction (np.mean mcpts) mcpts
  else np.ufunc1 (kernel np.arcsinh) x.

Definition atan (x : value) : M value :=
  b <- isinstance x ;;
  if b then
    a <- getattr mcpts x ;;
    let mcpts := np.loop1 (kernel np.arctan) a in
    new_UncertainFunction (np.mean mcpts) mcpts
  else np.ufunc1 (kernel np.arctan) x.

Definition atanh (x : value) : M value :=
  b <- isinstance x ;;
  if b then
    a <- getattr mcpts x ;;
    let mcpts := np.loop1 (kernel np.arctanh) a in
    new_UncertainFunction (np.mean mcpts) mcpts
  else np.ufunc1 (kernel np.arctanh) x.

Definition ceil (x : value) : M value :=
  b <- isinstance x ;;
  if b then
    a <- getattr mcpts x ;;
    let mcpts := np.loop1 (kernel np.ceil) a in
    new_UncertainFunction (np.mean mcpts) mcpts
  else np.ufunc1 (kernel np.ceil) x.

Definition cos (x : value) : M value :=
  b <- isinstance x ;;
  if b then
    a <- getattr mcpts x ;;
    let mcpts := np.loop1 (kernel np.cos) a in
    new_UncertainFunction (np.mean mcpts) mcpts
  else np.ufunc1 (kernel np.cos) x.

Definition cosh (x : value) : M value :=
  b <- isinstance x ;;
  if b then
    a <- getattr mcpts x ;;
    let mcpts := np.loop1 (kernel np.cosh) a in
    new_UncertainFunction (np.mean mcpts) mcpts
  else np.ufunc1 (kernel np.cosh) x.

Definition degrees (x : value) : M value :=
  b <- isinstance x ;;
  if b then
    a <- getattr mcpts x ;;
    let mcpts := np.loop1 (kernel np.degrees) a in
    new_UncertainFunction (np.mean mcpts) mcpts
  else np.ufunc1 (kernel np.degrees) x.

Definition exp (x : value) : M value :=
  b <- isinstance x ;;
  if b then
    a <- getattr mcpts x ;;
    let mcpts := np.loop1 (kernel np.exp) a in
    new_UncertainFunction (np.mean mcpts) mcpts
  else np.ufunc1 (kernel np.exp) x.

Definition expm1 (x : value) : M value :=
  b <- isinstance x ;;
  if b then
    a <- getattr mcpts x ;;
    let mcpts := np.loop1 (kernel np.expm1) a in
    new_UncertainFunction (np.mean mcpts) mcpts
  else np.ufunc1 (kernel np.expm1) x.

Definition fabs (x : value) : M value :=
  b <- isinstance x ;;
  if b then
    a <- getattr mcpts x ;;
    let mcpts := np.loop1 PrimFloat.abs a in
    new_UncertainFunction (np.mean mcpts) mcpts
  else np.ufunc1 PrimFloat.abs x.

Definition floor (x : value) : M value :=
  b <- isinstance x ;;
  if b then
    a <- getattr mcpts x ;;
    let mcpts := np.loop1 (kernel np.floor) a in
    new_UncertainFunction (np.mean mcpts) mcpts
  else np.ufunc1 (kernel np.floor) x.

(** The test of the source names [x] on both sides of its [or]; [y] is
    never tested. *)
Definition hypot (x y : value) : M value :=
  b1 <- isinstance x ;;
  b2 <- isinstance x ;;
  if b1 || b2 then
    ufx <- to_uncertain_func npts x ;;
    ufy <- to_uncertain_func npts y ;;
    ax <- getattr _mcpts ufx ;;
    ay <- getattr _mcpts ufy ;;
    mcpts <- lift (np.loop2 kernel_hypot ax ay) ;;
    new_UncertainFunction (np.mean mcpts) mcpts
  else np.ufunc2 kernel_hypot x y.

Definition log (x : value) : M value :=
  b <- isinstance x ;;
  if b then
    a <- getattr mcpts x ;;
    let mcpts := np.loop1 (kernel np.log) a in
    new_UncertainFunction (np.mean mcpts) mcpts
  else np.ufunc1 (kernel np.log) x.

Definition ln (x : value) : M value := log x.

Definition log10 (x : value) : M value :=
  b <- isinstance x ;;
  if b then
    a <- getattr mcpts x ;;
    let mcpts := np.loop1 (kernel np.log10) a in
    new_UncertainFunction (np.mean mcpts) mcpts
  else np.ufunc1 (kernel np.log10) x.

Definition log1p (x : value) : M value :=
  b <- isinstance x ;;
  if b then
    a <- getattr mcpts x ;;
    let mcpts := np.loop1 (kernel np.log1p) a in
    new_UncertainFunction (np.mean mcpts) mcpts
  else np.ufunc1 (kernel np.log1p) x.

Definition radians (x : value) : M value :=
  b <- isinstance x ;;
  if b then
    a <- getattr mcpts x ;;
    let mcpts := np.loop1 (kernel np.radians) a in
    new_UncertainFunction (np.mean mcpts) mcpts
  else np.ufunc1 (kernel np.radians) x.

Definition sin (x : value) : M value :=
  b <- isinstance x ;;
  if b then
    a <- getattr mcpts x ;;
    let mcpts := np.loop1 (kernel np.sin) a in
    new_UncertainFunction (np.mean mcpts) mcpts
  else np.ufunc1 (kernel np.sin) x.

Definition sinh (x : value) : M value :=
  b <- isinstance x ;;
  if b then
    a <- getattr mcpts x ;;
    let mcpts := np.loop1 (kernel np.sinh) a in
    new_UncertainFunction (np.mean mcpts) mcpts
  else np.ufunc1 (kernel np.sinh) x.

Definition sqrt (x : value) : M value :=
  b <- isinstance x ;;
  if b then
    a <- getattr mcpts x ;;
    let mcpts := np.loop1 PrimFloat.sqrt a in
    new_UncertainFunction (np.mean mcpts) mcpts
  else np.ufunc1 PrimFloat.sqrt x.

Definition tan (x : value) : M value :=
  b <- isinstance x ;;
  if b then
    a <- getattr mcpts x ;;
    let mcpts := np.loop1 (kernel np.tan) a in
    new_UncertainFunction (np.mean mcpts) mcpts
  else np.ufunc1 (kernel np.tan) x.

Definition tanh (x : value) : M value :=
  b <- isinstance x ;;
  if b then
    a <- getattr mcpts x ;;
    let mcpts := np.loop1 (kernel np.tanh) a in
    new_UncertainFunction (np.mean mcpts) mcpts
  else np.ufunc1 (kernel np.tanh) x.

Definition trunc (x : value) : M value :=
  b <- isinstance x ;;
  if b then
    a <- getattr mcpts x ;;
    let mcpts := np.loop1 (kernel np.trunc) a in
    new_UncertainFunction (np.mean mcpts) mcpts
  else np.ufunc1 (kernel np.trunc) x.

End Functions.

End umath.

(** ** The catalog *)

(** The one-argument names of [__all__]. *)
Inductive catalog : Type :=
| Abs | Fabs | Sqrt | Degrees | Radians
| Acos | Acosh | Asin | Asinh | Atan | Atanh
| Cos | Cosh | Sin | Sinh | Tan | Tanh
| Exp | Expm1 | Ln | Log | Log1p | Log10
| Ceil | Floor | Trunc.

Section Catalog.

Variable kernel : np.ufunc -> float -> float.

(** The function of the module behind each name. *)
Definition call (F : catalog) : value -> M value :=
  match F with
  | Abs => umath.abs | Fabs => umath.fabs | Sqrt => umath.sqrt
  | Degrees => umath.degrees kernel | Radians => umath.radians kernel
  | Acos => umath.acos kernel | Acosh => umath.acosh kernel
  | Asin => umath.asin kernel | Asinh => umath.asinh kernel
  | Atan => umath.atan kernel | Atanh => umath.atanh kernel
  | Cos => umath.cos kernel | Cosh => umath.cosh kernel
  | Sin => umath.sin kernel | Sinh => umath.sinh kernel
  | Tan => umath.tan kernel | Tanh => umath.tanh kernel
  | Exp => umath.exp kernel | Expm1 => umath.expm1 kernel
  | Ln => umath.ln kernel | Log => umath.log kernel
  | Log1p => umath.log1p kernel | Log10 => umath.log10 kernel
  | Ceil => umath.ceil kernel | Floor => umath.floor kernel
  | Trunc => umath.trunc kernel
  end.

(** The scalar primitive the documentation of each name promises:
    absolute value, inverse cosine, and so on. *)
Definition primitive (F : catalog) : float -> float :=
  match F with
  | Abs | Fabs => PrimFloat.abs
  | Sqrt => PrimFloat.sqrt
  | Degrees => kernel np.degrees | Radians => kernel np.radians
  | Acos => kernel np.arccos | Acosh => kernel np.arccosh
  | Asin => kernel np.arcsin | Asinh => kernel np.arcsinh
  | Atan => kernel np.arctan | Atanh => kernel np.arctanh
  | Cos => kernel np.cos | Cosh => kernel np.cosh
  | Sin => kernel np.sin | Sinh => kernel np.sinh
  | Tan => kernel np.tan | Tanh => kernel np.tanh
  | Exp => kernel np.exp | Expm1 => kernel np.expm1
  | Ln | Log => kernel np.log
  | Log1p => kernel np.log1p | Log10 => kernel np.log10
  | Ceil => kernel np.ceil | Floor => kernel np.floor
  | Trunc => kernel np.trunc
  end.

End Catalog.

(** The object a returned reference denotes in the final heap. *)
Definition result_object (r : outcome value * heap) : option UncertainFunction :=
  match r with
  | (Return (Ref l), h) => match nth_error h l with
                           | Some (Instance u) => Some u
                           | _ => None
                           end
  | _ => None
  end.

(** The formula the specification gives for the hypotenuse; used where an
    example needs a concrete kernel for [np.hypot]. *)
Definition sqrt_of_squares (x y : float) : float :=
  PrimFloat.sqrt (x * x + y * y)%float.

(** ** Heap properties of a call *)

(** Every object of the heap before the call is the same object after
    it. *)
Definition untouched (h : heap) (r : outcome value * heap) : Prop :=
  forall (l : loc) (o : object),
    nth_error h l = Some o -> nth_error (snd r) l = Some o.

(** A returned reference is an address that was free before the call and
    holds an [UncertainFunction] after it. *)
Definition fresh_result (h : heap) (r : outcome value * heap) : Prop :=
  forall l : loc,
    fst r = Return (Ref l) ->
    nth_error h l = None /\
    exists R : UncertainFunction, nth_error (snd r) l = Some (Instance R).

(** A call only appends to the heap, and a reference it returns denotes an
    object it appended, built from [np.mean] of its samples and the
    samples. *)
Definition allocates (h : heap) (r : outcome value * heap) : Prop :=
  exists t : heap,
    snd r = h ++ t /\
    forall l : loc,
      fst r = Return (Ref l) ->
      length h <= l /\
      exists m : ndarray,
        nth_error (snd r) l = Some (Instance (mkUncertainFunction (np.mean m) m)).

(** A plain numeric value: a scalar or an array. *)
Definition is_plain (x : value) : bool :=
  match x with
  | Scalar _ | Array _ => true
  | Ref _ => false
  end.

(** ** Concrete inputs *)

(** The samples 1, 4, 9 with their mean as nominal value. *)
Definition u149 : UncertainFunction :=
  mkUncertainFunction 0x1.2aaaaaaaaaaabp+2 [1; 4; 9]%float.

Definition h149 : heap := [Instance u149].

(** The same samples under another nominal value. *)
Definition u149' : UncertainFunction := mkUncertainFunction 0 [1; 4; 9]%float.

(** An object with the same data that is not an [UncertainFunction]. *)
Definition duck149 : Duck := mkDuck 0x1.2aaaaaaaaaaabp+2 [1; 4; 9]%float.

(** One sample, and two samples. *)
Definition u3 : UncertainFunction := mkUncertainFunction 3 [3]%float.

Definition u40 : UncertainFunction := mkUncertainFunction 2 [4; 0]%float.



(** * Properties *)

(** ** Running a function symbolically *)

Ltac run :=
  cbv beta iota zeta delta
    [call primitive
     umath.abs umath.acos umath.acosh umath.asin umath.asinh umath.atan
     umath.atanh umath.ceil umath.cos umath.cosh umath.degrees umath.exp
     umath.expm1 umath.fabs umath.floor umath.hypot umath.ln umath.log
     umath.log10 umath.log1p umath.radians umath.sin umath.sinh umath.sqrt
     umath.tan umath.tanh umath.trunc
     to_uncertain_func np.ufunc1 np.ufunc2 np.loop1
     bind ret raise lift isinstance getattr new_UncertainFunction
     mcpts orb fst snd result_object].

Ltac known H := repeat (rewrite H; cbv beta iota zeta).
Ltac known2 H H' := repeat (first [rewrite H | rewrite H']; cbv beta iota zeta).

Section Lifting.

Variable kernel : np.ufunc -> float -> float.

(** On an instance, every one-argument function allocates one object: the
    primitive mapped over the samples, and [np.mean] of that. *)
Lemma call_instance (F : catalog) (h : heap) (l : loc) (u : UncertainFunction) :
  nth_error h l = Some (Instance u) ->
  call kernel F (Ref l) h =
  (Return (Ref (length h)),
   h ++ [Instance (mkUncertainFunction
                     (np.mean (map (primitive kernel F) (_mcpts u)))
                     (map (primitive kernel F) (_mcpts u)))]).
Proof.
  intros Hl. destruct F; run; known Hl; reflexivity.
Qed.

(** On a reference to anything else, the numpy primitive receives the
    reference. *)
Lemma call_foreign (F : catalog) (h : heap) (l : loc) (d : Duck) :
  nth_error h l = Some (Foreign d) ->
  call kernel F (Ref l) h = np.ufunc1 (primitive kernel F) (Ref l) h.
Proof.
  intros Hl. destruct F; run; known Hl; reflexivity.
Qed.

Lemma call_scalar (F : catalog) (h : heap) (s : float) :
  call kernel F (Scalar s) h = (Return (Scalar (primitive kernel F s)), h).
Proof. destruct F; reflexivity. Qed.

Lemma call_array (F : catalog) (h : heap) (a : ndarray) :
  call kernel F (Array a) h = (Return (Array (map (primitive kernel F) a)), h).
Proof. destruct F; reflexivity. Qed.

End Lifting.

Lemma nth_error_new (h : heap) (o : object) :
  nth_error (h ++ [o]) (length h) = Some o.
Proof.
  rewrite nth_error_app2 by lia. rewrite Nat.sub_diag. reflexivity.
Qed.

Lemma nth_error_kept (h t : heap) (l : loc) (o : object) :
  nth_error h l = Some o -> nth_error (h ++ t) l = Some o.
Proof.
  intros Hl. rewrite nth_error_app1; [exact Hl|].
  apply nth_error_Some. congruence.
Qed.


(** ** What a call does to the heap *)

Lemma allocates_none (h : heap) (o : outcome value) :
  (forall l, o <> Return (Ref l)) -> allocates h (o, h).
Proof.
  intros Ho. exists []. split; [symmetry; apply app_nil_r|].
  intros l Hr. destruct (Ho l Hr).
Qed.

Lemma allocates_one (h t : heap) (m : ndarray) :
  allocates h (Return (Ref (length (h ++ t))),
               (h ++ t) ++ [Instance (mkUncertainFunction (np.mean m) m)]).
Proof.
  exists (t ++ [Instance (mkUncertainFunction (np.mean m) m)]).
  split; [symmetry; apply app_assoc|].
  cbn [fst snd]. intros l Hr. injection Hr as <-. split.
  - rewrite length_app. lia.
  - exists m. apply nth_error_new.
Qed.

Lemma allocates_new (h : heap) (m : ndarray) :
  allocates h (Return (Ref (length h)),
               h ++ [Instance (mkUncertainFunction (np.mean m) m)]).
Proof.
  exists [Instance (mkUncertainFunction (np.mean m) m)].
  split; [reflexivity|].
  cbn [fst snd]. intros l Hr. injection Hr as <-. split; [lia|].
  exists m. apply nth_error_new.
Qed.

Lemma allocates_raise (h t : heap) (e : exn) : allocates h (Raise e, h ++ t).
Proof.
  exists t. split; [reflexivity|]. cbn [fst]. intros l Hr. discriminate Hr.
Qed.

Section Shape.

Variable kernel : np.ufunc -> float -> float.
Variable kernel_hypot : float -> float -> float.
Variable npts : nat.

Lemma ufunc1_allocates (k : float -> float) (x : value) (h : heap) :
  allocates h (np.ufunc1 k x h).
Proof.
  destruct x; apply allocates_none; discriminate.
Qed.

Lemma ufunc2_allocates (x y : value) (h : heap) :
  allocates h (np.ufunc2 kernel_hypot x y h).
Proof.
  destruct x as [s|a|l], y as [t|b|l']; run;
    try (apply allocates_none; discriminate).
  destruct (np.loop2 kernel_hypot a b); apply allocates_none; discriminate.
Qed.

Lemma call_allocates (F : catalog) (x : value) (h : heap) :
  allocates h (call kernel F x h).
Proof.
  destruct x as [s|a|l].
  - rewrite call_scalar. apply allocates_none. discriminate.
  - rewrite call_array. apply allocates_none. discriminate.
  - destruct (nth_error h l) as [[u|d]|] eqn:Hl.
    + rewrite (call_instance kernel F h l Hl).
      apply allocates_new.
    + rewrite (call_foreign kernel F h l Hl). apply ufunc1_allocates.
    + destruct F; run; known Hl; apply allocates_none; discriminate.
Qed.

(** [hypot] on an instance and an instance. *)
Lemma hypot_instances (h : heap) (lx ly : loc) (ux uy : UncertainFunction) :
  nth_error h lx = Some (Instance ux) ->
  nth_error h ly = Some (Instance uy) ->
  umath.hypot kernel_hypot npts (Ref lx) (Ref ly) h =
  match np.loop2 kernel_hypot (_mcpts ux) (_mcpts uy) with
  | Return m =>
      (Return (Ref (length h)),
       h ++ [Instance (mkUncertainFunction (np.mean m) m)])
  | Raise e => (Raise e, h)
  end.
Proof.
  intros Hx Hy. run. known2 Hx Hy.
  destruct (np.loop2 kernel_hypot (_mcpts ux) (_mcpts uy)); reflexivity.
Qed.

(** [hypot] on an instance and a scalar: the scalar becomes a constant
    object of [npts] samples first. *)
Lemma hypot_instance_scalar (h : heap) (lx : loc) (ux : UncertainFunction) (c : float) :
  nth_error h lx = Some (Instance ux) ->
  umath.hypot kernel_hypot npts (Ref lx) (Scalar c) h =
  match np.loop2 kernel_hypot (_mcpts ux) (repeat c npts) with
  | Return m =>
      (Return (Ref (length (h ++ [Instance (mkUncertainFunction c (repeat c npts))]))),
       (h ++ [Instance (mkUncertainFunction c (repeat c npts))])
         ++ [Instance (mkUncertainFunction (np.mean m) m)])
  | Raise e => (Raise e, h ++ [Instance (mkUncertainFunction c (repeat c npts))])
  end.
Proof.
  intros Hx. run. known Hx.
  rewrite (nth_error_kept h _ lx Hx). cbv beta iota zeta.
  rewrite nth_error_new. cbv beta iota zeta. cbn [_mcpts].
  destruct (np.loop2 kernel_hypot (_mcpts ux) (repeat c npts)); reflexivity.
Qed.

(** [hypot] whose first argument is not an instance: numpy receives both
    arguments as they are. *)
Lemma hypot_first_plain (x y : value) (h : heap) :
  (forall l u, x = Ref l -> nth_error h l <> Some (Instance u)) ->
  umath.hypot kernel_hypot npts x y h = np.ufunc2 kernel_hypot x y h.
Proof.
  intros Hx. destruct x as [s|a|l]; try reflexivity.
  destruct (nth_error h l) as [[u|d]|] eqn:Hl.
  - destruct (Hx l u eq_refl Hl).
  - unfold umath.hypot, bind, isinstance. known Hl. reflexivity.
  - unfold umath.hypot, bind, isinstance. known Hl. reflexivity.
Qed.

Lemma hypot_allocates (x y : value) (h : heap) :
  allocates h (umath.hypot kernel_hypot npts x y h).
Proof.
  destruct x as [s|a|lx];
    try (rewrite hypot_first_plain by discriminate; apply ufunc2_allocates).
  destruct (nth_error h lx) as [[ux|dx]|] eqn:Hx;
    try (rewrite hypot_first_plain by (intros ? ? [= <-]; congruence);
         apply ufunc2_allocates).
  destruct y as [c|b|ly].
  - rewrite (hypot_instance_scalar h lx c Hx).
    destruct (np.loop2 kernel_hypot (_mcpts ux) (repeat c npts)).
    + apply allocates_one.
    + apply allocates_raise.
  - run. known Hx. apply allocates_none. discriminate.
  - destruct (nth_error h ly) as [[uy|dy]|] eqn:Hy.
    + rewrite (hypot_instances h lx ly Hx Hy).
      destruct (np.loop2 kernel_hypot (_mcpts ux) (_mcpts uy)).
      * apply allocates_new.
      * apply allocates_none. discriminate.
    + run. known2 Hx Hy. apply allocates_none. discriminate.
    + run. known2 Hx Hy. apply allocates_none. discriminate.
Qed.

End Shape.

Lemma allocates_nominal (h : heap) (r : outcome value * heap) (R : UncertainFunction) :
  allocates h r -> result_object r = Some R ->
  nominal_value R = np.mean (_mcpts R).
Proof.
  intros [t [_ Hfresh]] HR. destruct r as [[[s|a|l]|e] h']; try discriminate HR.
  destruct (Hfresh l eq_refl) as [_ [m Hm]].
  cbn [result_object snd] in HR, Hm. rewrite Hm in HR.
  injection HR as <-. reflexivity.
Qed.

Lemma allocates_untouched (h : heap) (r : outcome value * heap) :
  allocates h r -> untouched h r.
Proof.
  intros [t [Ht _]] l o Hl. rewrite Ht. apply nth_error_kept, Hl.
Qed.

Lemma allocates_fresh (h : heap) (r : outcome value * heap) :
  allocates h r -> fresh_result h r.
Proof.
  intros [t [_ Hfresh]] l Hr. destruct (Hfresh l Hr) as [Hle [m Hm]]. split.
  - apply nth_error_None, Hle.
  - exists (mkUncertainFunction (np.mean m) m). exact Hm.
Qed.

(** ** Evaluated examples *)

(** The square root of the samples 1, 4, 9: the new nominal value is the
    mean 2 of the roots, not the root of the old nominal value. *)
Example sqrt_of_1_4_9 :
  umath.sqrt (Ref 0) h149 =
  (Return (Ref 1), h149 ++ [Instance (mkUncertainFunction 2 [1; 2; 3]%float)])
  /\ nominal_value u149 = np.mean (_mcpts u149)
  /\ PrimFloat.sqrt (nominal_value u149) = 0x1.1482f86c40c43p+1%float.
Proof. repeat split; reflexivity. Qed.

(** A domain error of the primitive reaches the caller as numpy produces
    it: the square root of [-1] is [nan], for a plain scalar and for a
    sample alike. *)
Example sqrt_of_minus_one :
  umath.sqrt (Scalar (-1)) [] = (Return (Scalar nan), []) /\
  umath.sqrt (Ref 0) [Instance (mkUncertainFunction (-1) [-1]%float)] =
    (Return (Ref 1),
     [Instance (mkUncertainFunction (-1) [-1]%float);
      Instance (mkUncertainFunction nan [nan])]).
Proof. split; reflexivity. Qed.

(** The mean of no samples is [nan]. *)
Example abs_of_no_samples :
  umath.abs (Ref 0) [Instance (mkUncertainFunction 0 [])] =
    (Return (Ref 1),
     [Instance (mkUncertainFunction 0 []);
      Instance (mkUncertainFunction nan [])]).
Proof. reflexivity. Qed.

(** ** The claims *)



(** C2. Nominal is mean: whenever a function of the catalog, of one or two
    arguments, returns an uncertain quantity, its nominal value is
    [np.mean] of its own samples. *)
Theorem nominal_is_mean
    (kernel : np.ufunc -> float -> float)
    (kernel_hypot : float -> float -> float) (npts : nat) :
  (forall (F : catalog) (x : value) (h : heap) (R : UncertainFunction),
      result_object (call kernel F x h) = Some R ->
      nominal_value R = np.mean (_mcpts R)) /\
  (forall (x y : value) (h : heap) (R : UncertainFunction),
      result_object (umath.hypot kernel_hypot npts x y h) = Some R ->
      nominal_value R = np.mean (_mcpts R)).
Proof.
  split.
  - intros F x h R. apply allocates_nominal with (h := h), call_allocates.
  - intros x y h R. apply allocates_nominal with (h := h), hypot_allocates.
Qed.

Lemma nominal_is_mean_sqrt :
  result_object (umath.sqrt (Ref 0) h149) =
    Some (mkUncertainFunction 2 [1; 2; 3]%float) /\
  nominal_value (mkUncertainFunction 2 [1; 2; 3]%float) = np.mean [1; 2; 3]%float.
Proof.
  split; [reflexivity|].
  exact (proj1 (nominal_is_mean (fun _ => PrimFloat.sqrt) sqrt_of_squares 3)
           Sqrt (Ref 0) h149 (mkUncertainFunction 2 [1; 2; 3]%float) eq_refl).
Defined.

(** C3. Coercion in [hypot], evaluated at a plain scalar first and an
    uncertain quantity second: the test looks at the first argument only,
    so nothing is coerced and numpy receives the object; with the
    arguments exchanged the scalar is coerced and a result is built. *)
Theorem hypot_scalar_first_not_coerced :
  umath.hypot sqrt_of_squares 2 (Scalar 3) (Ref 0) [Instance u40] =
    (Raise TypeError, [Instance u40]) /\
  umath.hypot sqrt_of_squares 2 (Ref 0) (Scalar 3) [Instance u40] =
    (Return (Ref 2),
     [Instance u40;
      Instance (mkUncertainFunction 3 [3; 3]%float);
      Instance (mkUncertainFunction 4 [5; 3]%float)]).
Proof. split; reflexivity. Qed.

(** C4. Pass-through: on a plain scalar or array every function of the
    catalog is the numpy primitive applied to the argument, and [hypot] on
    two plain arguments is [np.hypot] applied to them. *)
Theorem pass_through
    (kernel : np.ufunc -> float -> float)
    (kernel_hypot : float -> float -> float) (npts : nat) :
  (forall (F : catalog) (x : value) (h : heap),
      is_plain x = true ->
      call kernel F x h = np.ufunc1 (primitive kernel F) x h) /\
  (forall (x y : value) (h : heap),
      is_plain x = true -> is_plain y = true ->
      umath.hypot kernel_hypot npts x y h = np.ufunc2 kernel_hypot x y h).
Proof.
  split.
  - intros F [s|a|l] h Hx; try discriminate Hx.
    + apply call_scalar.
    + apply call_array.
  - intros x y h Hx _. apply hypot_first_plain.
    intros l u ->. discriminate Hx.
Qed.

Lemma pass_through_sqrt_array :
  is_plain (Array [1; 4; 9]%float) = true /\
  umath.sqrt (Array [1; 4; 9]%float) [] = (Return (Array [1; 2; 3]%float), []).
Proof.
  split; [reflexivity|].
  exact (proj1 (pass_through (fun _ => PrimFloat.sqrt) sqrt_of_squares 3)
           Sqrt (Array [1; 4; 9]%float) [] eq_refl).
Defined.

(** C5, counterexample. Two uncertain quantities with one and with two
    samples: no error, numpy stretches the single sample and a result
    with two samples is built. *)
Lemma hypot_broadcasts_single_sample :
  length (_mcpts u3) = 1 /\ length (_mcpts u40) = 2 /\
  umath.hypot sqrt_of_squares 2 (Ref 0) (Ref 1) [Instance u3; Instance u40] =
    (Return (Ref 2),
     [Instance u3; Instance u40;
      Instance (mkUncertainFunction 4 [5; 3]%float)]).
Proof. repeat split; reflexivity. Qed.

(** C5, amended. On two uncertain quantities whose sample arrays differ
    in length, [hypot] raises numpy's broadcasting error and builds
    nothing, unless one of the two arrays has exactly one sample, which
    is then paired with every sample of the other. *)
Theorem hypot_length_mismatch
    (kernel_hypot : float -> float -> float) (npts : nat)
    (h : heap) (lx ly : loc) (ux uy : UncertainFunction) :
  nth_error h lx = Some (Instance ux) ->
  nth_error h ly = Some (Instance uy) ->
  length (_mcpts ux) <> length (_mcpts uy) ->
  umath.hypot kernel_hypot npts (Ref lx) (Ref ly) h =
  match _mcpts ux, _mcpts uy with
  | [a], b =>
      (Return (Ref (length h)),
       h ++ [Instance (mkUncertainFunction
                         (np.mean (map (kernel_hypot a) b))
                         (map (kernel_hypot a) b))])
  | a, [b] =>
      (Return (Ref (length h)),
       h ++ [Instance (mkUncertainFunction
                         (np.mean (map (fun x => kernel_hypot x b) a))
                         (map (fun x => kernel_hypot x b) a))])
  | _, _ => (Raise ValueError, h)
  end.
Proof.
  intros Hx Hy Hlen. rewrite (hypot_instances kernel_hypot npts h lx ly Hx Hy).
  unfold np.loop2. apply Nat.eqb_neq in Hlen. rewrite Hlen.
  destruct (_mcpts ux) as [|a [|a' ar]], (_mcpts uy) as [|b [|b' br]]; reflexivity.
Qed.

Lemma hypot_length_mismatch_3_2 :
  length (_mcpts u149) <> length (_mcpts u40) /\
  umath.hypot sqrt_of_squares 2 (Ref 0) (Ref 1) [Instance u149; Instance u40] =
    (Raise ValueError, [Instance u149; Instance u40]).
Proof.
  split; [discriminate|].
  apply (hypot_length_mismatch sqrt_of_squares 2
           [Instance u149; Instance u40] 0 1 eq_refl eq_refl).
  discriminate.
Defined.

(** C6, counterexample. An object that has a nominal value and a sample
    array but is not an [UncertainFunction] is not propagated: numpy
    receives the object and refuses it, where the instance with the same
    data gets a result. *)
Lemma capability_is_not_enough :
  umath.sqrt (Ref 0) [Foreign duck149] = (Raise TypeError, [Foreign duck149]) /\
  umath.sqrt (Ref 0) [Instance u149] =
    (Return (Ref 1),
     [Instance u149; Instance (mkUncertainFunction 2 [1; 2; 3]%float)]).
Proof. split; reflexivity. Qed.

(** C6, amended. The classification is the type test
    [isinstance(x, UncertainFunction)]: an object that is not an instance,
    whatever data it offers, goes to the numpy primitive like a plain
    value, in every one-argument function. *)
Theorem classification_is_isinstance
    (kernel : np.ufunc -> float -> float) (F : catalog)
    (h : heap) (l : loc) (d : Duck) :
  nth_error h l = Some (Foreign d) ->
  isinstance (Ref l) h = (Return false, h) /\
  call kernel F (Ref l) h = np.ufunc1 (primitive kernel F) (Ref l) h.
Proof.
  intros Hl. split.
  - unfold isinstance. rewrite Hl. reflexivity.
  - apply call_foreign with (d := d), Hl.
Qed.

Lemma classification_is_isinstance_sqrt :
  nth_error [Foreign duck149] 0 = Some (Foreign duck149) /\
  isinstance (Ref 0) [Foreign duck149] = (Return false, [Foreign duck149]) /\
  umath.sqrt (Ref 0) [Foreign duck149] =
    np.ufunc1 PrimFloat.sqrt (Ref 0) [Foreign duck149].
Proof.
  split; [reflexivity|].
  exact (classification_is_isinstance (fun _ => PrimFloat.sqrt) Sqrt
           [Foreign duck149] 0 eq_refl).
Defined.

(** C7. Alias: [ln] is [log], on every argument and every heap. *)
Theorem ln_is_log
    (kernel : np.ufunc -> float -> float) (x : value) (h : heap) :
  umath.ln kernel x h = umath.log kernel x h.
Proof. reflexivity. Qed.




(** C9. No mutation, fresh result: a call of a catalog function, or of
    [hypot], leaves every object of the heap as it was, and a reference it
    returns is an address that was free before the call, holding a newly
    built [UncertainFunction]. *)
Theorem inputs_untouched_result_fresh
    (kernel : np.ufunc -> float -> float)
    (kernel_hypot : float -> float -> float) (npts : nat) :
  (forall (F : catalog) (x : value) (h : heap),
      untouched h (call kernel F x h) /\
      fresh_result h (call kernel F x h)) /\
  (forall (x y : value) (h : heap),
      untouched h (umath.hypot kernel_hypot npts x y h) /\
      fresh_result h (umath.hypot kernel_hypot npts x y h)).
Proof.
  split.
  - intros F x h. split.
    + apply allocates_untouched, call_allocates.
    + apply allocates_fresh, call_allocates.
  - intros x y h. split.
    + apply allocates_untouched, hypot_allocates.
    + apply allocates_fresh, hypot_allocates.
Qed.

Lemma inputs_untouched_sqrt :
  nth_error (snd (umath.sqrt (Ref 0) h149)) 0 = Some (Instance u149) /\
  nth_error h149 1 = None.
Proof.
  pose (T := inputs_untouched_result_fresh (fun _ => PrimFloat.sqrt) sqrt_of_squares 3).
  split.
  - exact (proj1 (proj1 T Sqrt (Ref 0) h149) 0 (Instance u149) eq_refl).
  - exact (proj1 (proj2 (proj1 T Sqrt (Ref 0) h149) 1 eq_refl)).
Defined.

(** C10. The result does not depend on the nominal value of the input:
    two uncertain quantities with the same sample array, whatever their
    nominal values, give the same result and the same final heap under
    every one-argument function. *)
Theorem nominal_not_read
    (kernel : np.ufunc -> float -> float) (F : catalog)
    (h : heap) (l1 l2 : loc) (u1 u2 : UncertainFunction) :
  nth_error h l1 = Some (Instance u1) ->
  nth_error h l2 = Some (Instance u2) ->
  _mcpts u1 = _mcpts u2 ->
  call kernel F (Ref l1) h = call kernel F (Ref l2) h.
Proof.
  intros H1 H2 Hs.
  rewrite (call_instance kernel F h l1 H1), (call_instance kernel F h l2 H2), Hs.
  reflexivity.
Qed.

Lemma nominal_not_read_sqrt :
  PrimFloat.eqb (nominal_value u149) (nominal_value u149') = false /\
  _mcpts u149 = _mcpts u149' /\
  umath.sqrt (Ref 0) [Instance u149; Instance u149'] =
  umath.sqrt (Ref 1) [Instance u149; Instance u149'].
Proof.
  split; [reflexivity|]. split; [reflexivity|].
  exact (nominal_not_read (fun _ => PrimFloat.sqrt) Sqrt
           [Instance u149; Instance u149'] 0 1 eq_refl eq_refl eq_refl).
Defined.

(** * Further properties of the module *)

(** ** Arrays paired index by index *)

Lemma length_zip_with (k : float -> float -> float) (a b : ndarray) :
  length a = length b -> length (np.zip_with k a b) = length a.
Proof.
  revert b. induction a as [|x a IH]; intros [|y b] Hlen;
    try discriminate Hlen; cbn [np.zip_with length]; [reflexivity|].
  f_equal. apply IH. injection Hlen as Hlen. exact Hlen.
Qed.

Lemma nth_error_zip_with (k : float -> float -> float) (a b : ndarray)
    (i : nat) (x y : float) :
  nth_error a i = Some x -> nth_error b i = Some y ->
  nth_error (np.zip_with k a b) i = Some (k x y).
Proof.
  revert b i. induction a as [|x' a IH]; intros [|y' b] [|i] Ha Hb;
    try discriminate Ha; try discriminate Hb; cbn [np.zip_with nth_error] in *.
  - injection Ha as ->. injection Hb as ->. reflexivity.
  - apply IH; assumption.
Qed.

Lemma zip_with_repeat (k : float -> float -> float) (a : ndarray) (c : float) :
  np.zip_with k a (repeat c (length a)) = map (fun x => k x c) a.
Proof.
  induction a as [|x a IH]; cbn [np.zip_with repeat length map]; [reflexivity|].
  f_equal. exact IH.
Qed.

Lemma loop2_same_length (k : float -> float -> float) (a b : ndarray) :
  length a = length b -> np.loop2 k a b = Return (np.zip_with k a b).
Proof.
  intros Hlen. unfold np.loop2. apply Nat.eqb_eq in Hlen. rewrite Hlen.
  reflexivity.
Qed.

(** ** Absolute value of a binary64 number *)




(** ** References that are not instances *)



(** ** Two calls in a row *)


Lemma result_object_new (h : heap) (R : UncertainFunction) :
  result_object (Return (Ref (length h)), h ++ [Instance R]) = Some R.
Proof. cbn [result_object]. rewrite nth_error_new. reflexivity. Qed.


(** ** [hypot] on two uncertain quantities *)

(** X1. [hypot] on two uncertain quantities with equally many samples
    builds one new object: it has as many samples, the [i]-th being the
    kernel of [np.hypot] at the [i]-th samples of the two arguments, and
    its nominal value is [np.mean] of them. *)
Theorem hypot_index_correspondence
    (kernel_hypot : float -> float -> float) (npts : nat)
    (h : heap) (lx ly : loc) (ux uy : UncertainFunction) :
  nth_error h lx = Some (Instance ux) ->
  nth_error h ly = Some (Instance uy) ->
  length (_mcpts ux) = length (_mcpts uy) ->
  exists R : UncertainFunction,
    umath.hypot kernel_hypot npts (Ref lx) (Ref ly) h =
      (Return (Ref (length h)), h ++ [Instance R]) /\
    length (_mcpts R) = length (_mcpts ux) /\
    nominal_value R = np.mean (_mcpts R) /\
    forall (i : nat) (x y : float),
      nth_error (_mcpts ux) i = Some x ->
      nth_error (_mcpts uy) i = Some y ->
      nth_error (_mcpts R) i = Some (kernel_hypot x y).
Proof.
  intros Hx Hy Hlen.
  rewrite (hypot_instances kernel_hypot npts h lx ly Hx Hy).
  rewrite (loop2_same_length kernel_hypot _ _ Hlen).
  eexists. split; [reflexivity|]. cbn [_mcpts nominal_value].
  split; [apply length_zip_with, Hlen|]. split; [reflexivity|].
  intros i x y Hi Hj. apply nth_error_zip_with; assumption.
Qed.

(** The same object as both arguments. *)
Lemma hypot_index_correspondence_self :
  nth_error [Instance u40] 0 = Some (Instance u40) /\
  exists R : UncertainFunction,
    umath.hypot sqrt_of_squares 2 (Ref 0) (Ref 0) [Instance u40] =
      (Return (Ref 1), [Instance u40; Instance R]) /\
    length (_mcpts R) = 2 /\
    nominal_value R = np.mean (_mcpts R) /\
    forall (i : nat) (x y : float),
      nth_error (_mcpts u40) i = Some x ->
      nth_error (_mcpts u40) i = Some y ->
      nth_error (_mcpts R) i = Some (sqrt_of_squares x y).
Proof.
  split; [reflexivity|].
  exact (@hypot_index_correspondence sqrt_of_squares 2 [Instance u40] 0 0
           u40 u40 eq_refl eq_refl eq_refl).
Defined.



(** X3. [hypot] on an uncertain quantity and a plain scalar [c], when the
    quantity has the sample count of the coercion: the scalar becomes a
    constant object first, and the result pairs every sample with [c]. *)
Theorem hypot_instance_scalar_samples
    (kernel_hypot : float -> float -> float)
    (h : heap) (lx : loc) (ux : UncertainFunction) (c : float) :
  nth_error h lx = Some (Instance ux) ->
  result_object
    (umath.hypot kernel_hypot (length (_mcpts ux)) (Ref lx) (Scalar c) h) =
  Some (mkUncertainFunction
          (np.mean (map (fun x => kernel_hypot x c) (_mcpts ux)))
          (map (fun x => kernel_hypot x c) (_mcpts ux))).
Proof.
  intros Hx. rewrite (hypot_instance_scalar kernel_hypot _ h lx c Hx).
  rewrite loop2_same_length by (symmetry; apply repeat_length).
  rewrite zip_with_repeat. apply result_object_new.
Qed.

Lemma hypot_instance_scalar_samples_3 :
  nth_error [Instance u40] 0 = Some (Instance u40) /\
  result_object
    (umath.hypot sqrt_of_squares 2 (Ref 0) (Scalar 3) [Instance u40]) =
  Some (mkUncertainFunction 4 [5; 3]%float).
Proof.
  split; [reflexivity|].
  exact (@hypot_instance_scalar_samples sqrt_of_squares [Instance u40] 0
           u40 3 eq_refl).
Defined.

(** X9. [hypot] reads the samples of its arguments only: two pairs of
    uncertain quantities with the same sample arrays, whatever their
    nominal values, give the same result and the same final heap. *)
Theorem hypot_nominal_not_read
    (kernel_hypot : float -> float -> float) (npts : nat) (h : heap)
    (lx ly lx' ly' : loc) (ux uy ux' uy' : UncertainFunction) :
  nth_error h lx = Some (Instance ux) ->
  nth_error h ly = Some (Instance uy) ->
  nth_error h lx' = Some (Instance ux') ->
  nth_error h ly' = Some (Instance uy') ->
  _mcpts ux = _mcpts ux' ->
  _mcpts uy = _mcpts uy' ->
  umath.hypot kernel_hypot npts (Ref lx) (Ref ly) h =
  umath.hypot kernel_hypot npts (Ref lx') (Ref ly') h.
Proof.
  intros Hx Hy Hx' Hy' Hsx Hsy.
  rewrite (hypot_instances kernel_hypot npts h lx ly Hx Hy).
  rewrite (hypot_instances kernel_hypot npts h lx' ly' Hx' Hy').
  rewrite Hsx, Hsy. reflexivity.
Qed.

Lemma hypot_nominal_not_read_149 :
  PrimFloat.eqb (nominal_value u149) (nominal_value u149') = false /\
  umath.hypot sqrt_of_squares 3 (Ref 0) (Ref 0) [Instance u149; Instance u149'] =
  umath.hypot sqrt_of_squares 3 (Ref 1) (Ref 0) [Instance u149; Instance u149'].
Proof.
  split; [reflexivity|].
  exact (@hypot_nominal_not_read sqrt_of_squares 3
           [Instance u149; Instance u149'] 0 0 1 0 u149 u149 u149' u149
           eq_refl eq_refl eq_refl eq_refl eq_refl eq_refl).
Defined.

(** ** One-argument functions: chaining, errors, edge cases *)










